(** * Payment reconciliation and business moderation of the directory backend

    A shallow embedding of the request handlers of [routes/payments.js]
    (create-intent, confirm, status poll, webhook and its three helpers) and of
    the approve / reject handlers of [routes/admin.js], over an explicit model
    of the Mongo collections they read and write.

    Conventions.
    - A handler is a computation in the monad [M]: it threads the [World]
      (collections, gateway call log, pending database faults) and either
      finishes with a value or throws, as an [async] function does.  Writes
      made before a throw stay in the world: there is no transaction.
    - Every awaited Mongoose call goes through [db_call], which consumes one
      entry of the fault schedule; [healthy] worlds have an empty schedule.
    - The payment gateway is an oracle [Stripe] handed to each request; the
      calls made are appended to [stripe_calls].
    - Each request runs to completion before the next one starts: the model
      interleaves requests, not the awaits inside one request. *)

From stdpp Require Import base option list strings gmap pretty.

Local Open Scope string_scope.

(** ** JavaScript conventions used by the routes *)

Module JS.

(** [x || d] on an optional string: [undefined] and the empty string are
    falsy. *)
Definition or_else (x : option string) (d : string) : string :=
  match x with
  | Some s => if bool_decide (s = "") then d else s
  | None => d
  end.

(** [x || d] on an optional object. *)
Definition or_obj {A} (x : option A) (d : A) : A := default d x.

End JS.

(** ** Documents *)

Abbreviation oid := nat.
Abbreviation date := N.

(** Values stored in a [Mixed] metadata map. *)
Inductive mixed :=
| MStr (s : string)
| MId (i : oid).

Module User.
Record t := mk {
  _id : oid;
  email : string;
  firstName : string;
  lastName : string;
  userType : string
}.
Definition fullName (u : t) : string := firstName u +:+ " " +:+ lastName u.
End User.

(** The moderation and payment fields of [businessSchema]; the presentation
    fields (logo, tagline, ...) are not touched by the routes below. *)
Module Business.
Record t := mk {
  owner : oid;
  name : string;
  isApproved : bool;
  isActive : bool;
  paymentStatus : string;
  status : string;
  paymentId : option oid;
  approvedAt : option date;
  rejectedAt : option date;
  rejectionReason : option string
}.

(** Schema defaults, as [Business.create] fills them in. *)
Definition fresh (o : oid) (n : string) : t :=
  mk o n false true "pending" "draft" None None None None.

Definition set_paymentStatus (s : string) (b : t) : t :=
  mk (owner b) (name b) (isApproved b) (isActive b) s (status b)
     (paymentId b) (approvedAt b) (rejectedAt b) (rejectionReason b).

Definition set_paymentId (p : oid) (b : t) : t :=
  mk (owner b) (name b) (isApproved b) (isActive b) (paymentStatus b) (status b)
     (Some p) (approvedAt b) (rejectedAt b) (rejectionReason b).

Definition set_isApproved (v : bool) (b : t) : t :=
  mk (owner b) (name b) v (isActive b) (paymentStatus b) (status b)
     (paymentId b) (approvedAt b) (rejectedAt b) (rejectionReason b).

Definition set_approvedAt (d : option date) (b : t) : t :=
  mk (owner b) (name b) (isApproved b) (isActive b) (paymentStatus b) (status b)
     (paymentId b) d (rejectedAt b) (rejectionReason b).

Definition set_rejectedAt (d : option date) (b : t) : t :=
  mk (owner b) (name b) (isApproved b) (isActive b) (paymentStatus b) (status b)
     (paymentId b) (approvedAt b) d (rejectionReason b).

Definition set_rejectionReason (r : option string) (b : t) : t :=
  mk (owner b) (name b) (isApproved b) (isActive b) (paymentStatus b) (status b)
     (paymentId b) (approvedAt b) (rejectedAt b) r.
End Business.

(** [paymentSchema]; the refund fields and [paymentMethod] are never written by
    the routes below and are left out. *)
Module Payment.
Record t := mk {
  _id : oid;
  user : oid;
  business : oid;
  stripePaymentIntentId : string;
  stripeCustomerId : string;
  amount : N;
  currency : string;
  status : string;
  description : string;
  metadata : gmap string mixed;
  failureReason : option string
}.

(** The [enum] of the [status] path. *)
Definition status_enum : list string :=
  ["pending"; "succeeded"; "failed"; "canceled"; "requires_payment_method";
   "requires_confirmation"; "requires_action"; "processing"].

Definition in_enum (s : string) : bool := bool_decide (s ∈ status_enum).

(** The validation [save] and [create] run on the document. *)
Definition valid (p : t) : bool := in_enum (status p).

Definition set_status (s : string) (p : t) : t :=
  mk (_id p) (user p) (business p) (stripePaymentIntentId p) (stripeCustomerId p)
     (amount p) (currency p) s (description p) (metadata p) (failureReason p).

Definition set_failureReason (r : string) (p : t) : t :=
  mk (_id p) (user p) (business p) (stripePaymentIntentId p) (stripeCustomerId p)
     (amount p) (currency p) (status p) (description p) (metadata p) (Some r).

Definition set_metadata (k : string) (v : mixed) (p : t) : t :=
  mk (_id p) (user p) (business p) (stripePaymentIntentId p) (stripeCustomerId p)
     (amount p) (currency p) (status p) (description p) (<[k := v]> (metadata p))
     (failureReason p).

(** What [save()] writes of a document that was loaded as [loaded] and is now
    [p].  [metadata] is a [Mixed] path: an assignment to one of its keys is
    invisible to change tracking and the route never calls [markModified], so
    the stored metadata stays as it was loaded; the other paths the routes
    assign ([status], [failureReason]) are tracked and written. *)
Definition tracked (loaded p : t) : t :=
  mk (_id p) (user p) (business p) (stripePaymentIntentId p) (stripeCustomerId p)
     (amount p) (currency p) (status p) (description p) (metadata loaded)
     (failureReason p).
End Payment.

(** [orderSchema], with the fields the confirm route passes to
    [Order.create]; [canceledAt] and [refundedAt] are never written by the
    routes below and are left out, and the billing address is kept as the
    key/value pairs the gateway sent.  [orderNumber] is unique in the
    collection. *)
Module Order.
Record item := mk_item {
  item_name : string;
  item_description : string;
  item_amount : N;
  quantity : N
}.

Record billing := mk_billing {
  billing_name : string;
  billing_email : string;
  billing_address : list (string * string)
}.

Record t := mk {
  _id : oid;
  user : oid;
  business : oid;
  orderNumber : string;
  payment : oid;
  items : list item;
  subtotal : N;
  taxes : N;
  total : N;
  currency : string;
  status : string;
  billingDetails : billing;
  completedAt : date
}.
End Order.

(** ** The payment gateway *)

(** A payment intent as the routes read it.  [last_payment_error_message] is
    [paymentIntent.last_payment_error?.message]; [charge_billing_name] and
    [charge_billing_address] are the two optional chains through
    [charges?.data[0]?.billing_details]. *)
Module Intent.
Record t := mk {
  id : string;
  status : string;
  client_secret : string;
  amount : N;
  last_payment_error_message : option string;
  charge_billing_name : option string;
  charge_billing_address : option (list (string * string))
}.
End Intent.

Record StripeEvent := mk_event {
  event_type : string;
  event_object : Intent.t
}.

Inductive outcome (A : Type) :=
| Done (a : A)
| Thrown (e : string).
Arguments Done {A} a.
Arguments Thrown {A} e.

(** What the gateway answers during one request. *)
Record Stripe := mk_stripe {
  customers_list : string -> outcome (list string);
  customers_create : string -> string -> outcome string;
  paymentIntents_create : N -> string -> string -> string -> outcome Intent.t;
  paymentIntents_retrieve : string -> outcome Intent.t
}.

Inductive StripeCall :=
| CustomersList (email : string)
| CustomersCreate (email name : string)
| PaymentIntentsCreate (amount : N) (currency customer : string)
| PaymentIntentsRetrieve (id : string).

(** ** The world *)

(** Documents written to the Notification and SystemLog collections, and the
    fan-out requested from the notification service.  No handler below reads
    them back. *)
Inductive Journal :=
| NotificationCreated (recipient : oid) (title : string)
| NewBusinessFanout (business : oid)
| SystemLogged (logType : string) (user : option oid) (business : oid) (description : string).

Record World := mk_world {
  users : gmap oid User.t;
  businesses : gmap oid Business.t;
  payments : list Payment.t;
  orders : list Order.t;
  journal : list Journal;
  next_oid : oid;
  stripe_calls : list StripeCall;
  faults : list bool
}.

Definition set_businesses (f : gmap oid Business.t -> gmap oid Business.t) (w : World) : World :=
  mk_world (users w) (f (businesses w)) (payments w) (orders w) (journal w)
           (next_oid w) (stripe_calls w) (faults w).

Definition set_payments (f : list Payment.t -> list Payment.t) (w : World) : World :=
  mk_world (users w) (businesses w) (f (payments w)) (orders w) (journal w)
           (next_oid w) (stripe_calls w) (faults w).

Definition set_orders (f : list Order.t -> list Order.t) (w : World) : World :=
  mk_world (users w) (businesses w) (payments w) (f (orders w)) (journal w)
           (next_oid w) (stripe_calls w) (faults w).

Definition set_journal (f : list Journal -> list Journal) (w : World) : World :=
  mk_world (users w) (businesses w) (payments w) (orders w) (f (journal w))
           (next_oid w) (stripe_calls w) (faults w).

Definition set_next_oid (n : oid) (w : World) : World :=
  mk_world (users w) (businesses w) (payments w) (orders w) (journal w)
           n (stripe_calls w) (faults w).

Definition set_stripe_calls (f : list StripeCall -> list StripeCall) (w : World) : World :=
  mk_world (users w) (businesses w) (payments w) (orders w) (journal w)
           (next_oid w) (f (stripe_calls w)) (faults w).

Definition set_faults (fs : list bool) (w : World) : World :=
  mk_world (users w) (businesses w) (payments w) (orders w) (journal w)
           (next_oid w) (stripe_calls w) fs.

(** The three ledgers the reconciliation is about. *)
Definition ledger (w : World) : list Payment.t * list Order.t * gmap oid Business.t :=
  (payments w, orders w, businesses w).

(** A world whose database answers every call. *)
Definition healthy (w : World) : World := set_faults [] w.

(** ** The handler monad *)

Definition M (A : Type) : Type := World -> outcome A * World.

Definition ret {A} (a : A) : M A := fun w => (Done a, w).

Definition bind {A B} (m : M A) (k : A -> M B) : M B :=
  fun w => match m w with
           | (Done a, w') => k a w'
           | (Thrown e, w') => (Thrown e, w')
           end.

Definition throw {A} (e : string) : M A := fun w => (Thrown e, w).

(** [try { m } catch (e) { h e }]. *)
Definition try_catch {A} (m : M A) (h : string -> M A) : M A :=
  fun w => match m w with
           | (Done a, w') => (Done a, w')
           | (Thrown e, w') => h e w'
           end.

Definition gets {A} (f : World -> A) : M A := fun w => (Done (f w), w).
Definition modify (f : World -> World) : M unit := fun w => (Done tt, f w).
Definition lift {A} (o : outcome A) : M A := fun w => (o, w).

Declare Scope handler_scope.
Delimit Scope handler_scope with handler.
Notation "x <- m ;; k" := (bind m (fun x => k))
  (at level 100, m at next level, right associativity) : handler_scope.
Notation "m ;;; k" := (bind m (fun _ => k))
  (at level 100, right associativity) : handler_scope.
Local Open Scope handler_scope.

(** One round trip to the database: throws when the schedule says so. *)
Definition db_call : M unit :=
  fun w => match faults w with
           | [] => (Done tt, w)
           | false :: fs => (Done tt, set_faults fs w)
           | true :: fs => (Thrown "MongoError", set_faults fs w)
           end.

(** [new ObjectId()]. *)
Definition fresh_oid : M oid :=
  fun w => (Done (next_oid w), set_next_oid (S (next_oid w)) w).

Definition stripe_call {A} (c : StripeCall) (answer : outcome A) : M A :=
  modify (set_stripe_calls (fun l => (l ++ [c])%list)) ;;; lift answer.

(** ** Collections *)

Module Db.

(** [Payment.findOne(query)]: the first document matching the query. *)
Definition Payment_findOne (query : Payment.t -> bool) : M (option Payment.t) :=
  db_call ;;; gets (fun w => find query (payments w)).

(** The update a [save] of an existing document performs: the stored
    document with the same [_id] is replaced. *)
Definition replace_payment (p : Payment.t) (l : list Payment.t) : list Payment.t :=
  map (fun q => if bool_decide (Payment._id q = Payment._id p) then p else q) l.

(** [payment.save()]: schema validation runs first and throws without
    touching the collection. *)
Definition Payment_save (p : Payment.t) : M unit :=
  if Payment.valid p
  then db_call ;;; modify (set_payments (replace_payment p))
  else throw "ValidationError".

(** [Payment.create(doc)]; [stripePaymentIntentId] has a unique index. *)
Definition Payment_create (mk : oid -> Payment.t) : M Payment.t :=
  i <- fresh_oid ;;
  let p := mk i in
  if Payment.valid p then
    db_call ;;;
    clash <- gets (fun w => existsb (fun q => bool_decide
               (Payment.stripePaymentIntentId q = Payment.stripePaymentIntentId p))
               (payments w)) ;;
    if (clash : bool) then throw "E11000"
    else modify (set_payments (fun l => (l ++ [p])%list)) ;;; ret p
  else throw "ValidationError".

(** [Order.create(doc)]; [orderNumber] has a unique index, so a number
    already in the collection makes the insert throw.  The route always
    supplies an order number, so the schema's pre-save hook, which generates
    one when it is missing, does nothing. *)
Definition Order_create (mk : oid -> Order.t) : M Order.t :=
  i <- fresh_oid ;;
  let o := mk i in
  db_call ;;;
  clash <- gets (fun w => existsb (fun q => bool_decide
             (Order.orderNumber q = Order.orderNumber o)) (orders w)) ;;
  if (clash : bool) then throw "E11000"
  else modify (set_orders (fun l => (l ++ [o])%list)) ;;; ret o.

(** [Business.findById(id)] and [Business.findOne({_id, owner})]. *)
Definition Business_findById (id : oid) : M (option Business.t) :=
  db_call ;;; gets (fun w => businesses w !! id).

Definition Business_findOne_owned (id owner : oid) : M (option Business.t) :=
  db_call ;;;
  gets (fun w => match businesses w !! id with
                 | Some b => if bool_decide (Business.owner b = owner) then Some b else None
                 | None => None
                 end).

(** [Business.findByIdAndUpdate(id, update)]: a missing document is not an
    error. *)
Definition Business_findByIdAndUpdate (id : oid) (update : Business.t -> Business.t) : M unit :=
  db_call ;;; modify (set_businesses (alter update id)).

(** [business.save()] of a document read by [findById]. *)
Definition Business_save (id : oid) (b : Business.t) : M unit :=
  db_call ;;; modify (set_businesses (insert id b)).

Definition SystemLog_create (user : option oid) (business : oid) (description : string) : M unit :=
  db_call ;;;
  modify (set_journal (fun l => (l ++ [SystemLogged "admin_action" user business description])%list)).

(** [Notification.create(doc)].  The journal keeps the recipient and the
    title; the message text, and the schema's length bound on it, are not
    modelled.  The call comes after the business has been saved, so it bears
    on the response of approve and reject, not on what they store. *)
Definition Notification_create (recipient : oid) (title : string) : M unit :=
  db_call ;;;
  modify (set_journal (fun l => (l ++ [NotificationCreated recipient title])%list)).

End Db.

(** [NotificationService.notifyNewBusiness]: the service catches whatever its
    queries throw and only inserts Notification documents; the route sees a
    call that returns. *)
Definition notifyNewBusiness (business : oid) : M unit :=
  try_catch
    (db_call ;;; modify (set_journal (fun l => (l ++ [NewBusinessFanout business])%list)))
    (fun _ => ret tt).

(** ** Responses *)

Inductive Body :=
| Message (success : bool) (message : string)
| ValidationFailed
| Coded (code message : string)
| IntentCreated (clientSecret : string) (paymentId : oid) (paymentIntentId : string)
    (amount : N) (currency : string)
| PaymentBody (payment : Payment.t) (message : option string)
| BusinessBody (message : string) (business : Business.t)
| Received
| Text (s : string)
| ErrorBody (error : string).

Record Response := response {
  http_status : nat;
  body : Body
}.

(** What a request draws from its environment: [new Date()] and
    [Math.floor(Math.random() * 1000000)]. *)
Record Env := mk_env {
  now : date;
  random : N
}.

Definition server_error : Response := response 500 (Message false "Server error").

(** ** routes/payments.js *)

Module Payments.
Import Db.

Definition listing_fee : N := 9900.

Definition generateOrderNumber (env : Env) : string := "ORD-" +:+ pretty (random env).

(** [POST /api/payments/create-intent].  [businessId] is [None] when the
    body field is not a Mongo id. *)
Definition create_intent (user : User.t) (businessId : option oid) (stripe : Stripe)
  : M Response :=
  try_catch
    (match businessId with
     | None => ret (response 400 ValidationFailed)
     | Some businessId =>
       business <- Business_findOne_owned businessId (User._id user) ;;
       match business with
       | None => ret (response 404 (Message false "Business not found or unauthorized"))
       | Some business =>
         existingPayment <- Payment_findOne (fun p =>
           bool_decide (Payment.business p = businessId)
           && bool_decide (Payment.status p = "succeeded")) ;;
         match existingPayment with
         | Some _ =>
           ret (response 200 (Coded "BUSINESS_ALREADY_PAID" "Business listing fee already paid"))
         | None =>
           stripeCustomer <-
             try_catch
               (customers <- stripe_call (CustomersList (User.email user))
                               (customers_list stripe (User.email user)) ;;
                match customers with
                | c :: _ => ret (Some c)
                | [] =>
                  c <- stripe_call (CustomersCreate (User.email user) (User.fullName user))
                         (customers_create stripe (User.email user) (User.fullName user)) ;;
                  ret (Some c)
                end)
               (fun _ => ret None) ;;
           match stripeCustomer with
           | None => ret (response 500 (Message false "Error creating customer"))
           | Some stripeCustomer =>
             let description := "Business listing fee for " +:+ Business.name business in
             paymentIntent <-
               stripe_call (PaymentIntentsCreate listing_fee "usd" stripeCustomer)
                 (paymentIntents_create stripe listing_fee "usd" stripeCustomer description) ;;
             payment <- Payment_create (fun i =>
               Payment.mk i (User._id user) businessId (Intent.id paymentIntent)
                 stripeCustomer listing_fee "usd" "pending" description
                 {[ "businessName" := MStr (Business.name business) ]} None) ;;
             ret (response 200
                    (IntentCreated (Intent.client_secret paymentIntent) (Payment._id payment)
                       (Intent.id paymentIntent) listing_fee "usd"))
           end
         end
       end
     end)
    (fun _ => ret server_error).

(** The document [Order.create] receives in the confirm route. *)
Definition listing_order (user : User.t) (payment : Payment.t) (paymentIntent : Intent.t)
    (env : Env) (i : oid) : Order.t :=
  Order.mk i (User._id user) (Payment.business payment) (generateOrderNumber env)
    (Payment._id payment)
    [Order.mk_item "Business Listing Fee"
       "One-time payment to publish your business on our platform" listing_fee 1]
    listing_fee 0 listing_fee "usd" "completed"
    (Order.mk_billing
       (JS.or_else (Intent.charge_billing_name paymentIntent) (User.fullName user))
       (User.email user)
       (JS.or_obj (Intent.charge_billing_address paymentIntent) []))
    (now env).

(** [POST /api/payments/confirm].  An absent [paymentIntentId] is the empty
    string.  [populate("business")] leaves [payment.business] null when the
    business document is gone, and [payment.business._id] then throws.  The
    order id is assigned into [payment.metadata] in place: the response
    carries it, the save does not write it (see [Payment.tracked]). *)
Definition confirm (user : User.t) (paymentIntentId : string) (env : Env) (stripe : Stripe)
  : M Response :=
  try_catch
    (if bool_decide (paymentIntentId = "") then ret (response 400 ValidationFailed)
     else
       paymentIntent <- stripe_call (PaymentIntentsRetrieve paymentIntentId)
                          (paymentIntents_retrieve stripe paymentIntentId) ;;
       found <- Payment_findOne (fun p =>
         bool_decide (Payment.stripePaymentIntentId p = paymentIntentId)
         && bool_decide (Payment.user p = User._id user)) ;;
       match found with
       | None => ret (response 404 (Message false "Payment not found"))
       | Some loaded =>
         populated <- gets (fun w => businesses w !! Payment.business loaded) ;;
         let payment := Payment.set_status (Intent.status paymentIntent) loaded in
         payment <-
           (if bool_decide (Intent.status paymentIntent = "succeeded") then
              match populated with
              | None => throw "TypeError"
              | Some _ =>
                Business_findByIdAndUpdate (Payment.business payment)
                  (fun b => Business.set_paymentId (Payment._id payment)
                              (Business.set_paymentStatus "paid" b)) ;;;
                order <- Order_create (listing_order user payment paymentIntent env) ;;
                ret (Payment.set_metadata "orderId" (MId (Order._id order)) payment)
              end
            else if bool_decide (Intent.status paymentIntent = "payment_failed") then
              ret (Payment.set_failureReason
                     (JS.or_else (Intent.last_payment_error_message paymentIntent)
                        "Payment failed") payment)
            else ret payment) ;;
         Payment_save (Payment.tracked loaded payment) ;;;
         ret (response 200
                (PaymentBody payment
                   (Some (if bool_decide (Intent.status paymentIntent = "succeeded")
                          then "Payment successful" else "Payment status updated"))))
       end)
    (fun _ => ret server_error).

(** [GET /api/payments/:paymentId/status].  The gateway query and the save
    share one [try]; the assignment to [payment.status] precedes the save,
    so the response carries the gateway's status even when the save
    throws. *)
Definition get_status (user : User.t) (paymentId : oid) (stripe : Stripe) : M Response :=
  try_catch
    (found <- Payment_findOne (fun p =>
       bool_decide (Payment._id p = paymentId)
       && bool_decide (Payment.user p = User._id user)) ;;
     match found with
     | None => ret (response 404 (Message false "Payment not found"))
     | Some payment =>
       retrieved <-
         try_catch
           (paymentIntent <-
              stripe_call (PaymentIntentsRetrieve (Payment.stripePaymentIntentId payment))
                (paymentIntents_retrieve stripe (Payment.stripePaymentIntentId payment)) ;;
            ret (Some paymentIntent))
           (fun _ => ret None) ;;
       payment <-
         match retrieved with
         | None => ret payment
         | Some paymentIntent =>
           if bool_decide (Payment.status payment ≠ Intent.status paymentIntent) then
             let payment := Payment.set_status (Intent.status paymentIntent) payment in
             try_catch (Payment_save payment) (fun _ => ret tt) ;;;
             ret payment
           else ret payment
         end ;;
       ret (response 200 (PaymentBody payment None))
     end)
    (fun _ => ret server_error).

Definition by_intent (id : string) (p : Payment.t) : bool :=
  bool_decide (Payment.stripePaymentIntentId p = id).

Definition handlePaymentSucceeded (paymentIntent : Intent.t) : M unit :=
  try_catch
    (found <- Payment_findOne (by_intent (Intent.id paymentIntent)) ;;
     match found with
     | Some payment =>
       let payment := Payment.set_status "succeeded" payment in
       Payment_save payment ;;;
       Business_findByIdAndUpdate (Payment.business payment)
         (Business.set_paymentStatus "paid") ;;;
       SystemLog_create (Some (Payment.user payment)) (Payment.business payment)
         "Payment succeeded via webhook"
     | None => ret tt
     end)
    (fun _ => ret tt).

Definition handlePaymentFailed (paymentIntent : Intent.t) : M unit :=
  try_catch
    (found <- Payment_findOne (by_intent (Intent.id paymentIntent)) ;;
     match found with
     | Some payment =>
       let payment := Payment.set_status "failed" payment in
       let payment := Payment.set_failureReason
         (JS.or_else (Intent.last_payment_error_message paymentIntent) "Payment failed")
         payment in
       Payment_save payment ;;;
       Business_findByIdAndUpdate (Payment.business payment)
         (Business.set_paymentStatus "failed")
     | None => ret tt
     end)
    (fun _ => ret tt).

Definition handlePaymentCanceled (paymentIntent : Intent.t) : M unit :=
  try_catch
    (found <- Payment_findOne (by_intent (Intent.id paymentIntent)) ;;
     match found with
     | Some payment =>
       let payment := Payment.set_status "canceled" payment in
       Payment_save payment ;;;
       Business_findByIdAndUpdate (Payment.business payment)
         (Business.set_paymentStatus "pending")
     | None => ret tt
     end)
    (fun _ => ret tt).

(** [POST /api/payments/webhook].  [constructed] is what
    [stripe.webhooks.constructEvent(req.body, sig, secret)] does: return the
    event or throw. *)
Definition webhook (constructed : outcome StripeEvent) : M Response :=
  match constructed with
  | Thrown err => ret (response 400 (Text ("Webhook Error: " +:+ err)))
  | Done event =>
    try_catch
      ((if bool_decide (event_type event = "payment_intent.succeeded") then
          handlePaymentSucceeded (event_object event)
        else if bool_decide (event_type event = "payment_intent.payment_failed") then
          handlePaymentFailed (event_object event)
        else if bool_decide (event_type event = "payment_intent.canceled") then
          handlePaymentCanceled (event_object event)
        else ret tt) ;;;
       ret (response 200 Received))
      (fun _ => ret (response 500 (ErrorBody "Webhook handler failed")))
  end.

End Payments.

(** ** routes/admin.js *)

Module Admin.
Import Db.

(** [PUT /api/admin/businesses/:id/approve].  [populate("owner")] leaves
    [business.owner] null when the owner is gone, and [business.owner._id]
    then throws, after the save. *)
Definition approve (admin : User.t) (id : oid) (env : Env) : M Response :=
  try_catch
    (found <- Business_findById id ;;
     owner <- gets (fun w => found ≫= fun b => users w !! Business.owner b) ;;
     match found with
     | None => ret (response 404 (Message false "Business not found"))
     | Some business =>
       if bool_decide (Business.paymentStatus business ≠ "paid") then
         ret (response 400 (Message false "Business payment not completed"))
       else
         let business := Business.set_isApproved true business in
         let business := Business.set_approvedAt (Some (now env)) business in
         let business := Business.set_rejectedAt None business in
         let business := Business.set_rejectionReason None business in
         Business_save id business ;;;
         match owner with
         | None => throw "TypeError"
         | Some owner =>
           Notification_create (User._id owner) "Business Approved" ;;;
           notifyNewBusiness id ;;;
           SystemLog_create (Some (User._id admin)) id
             ("Approved business " +:+ Business.name business) ;;;
           ret (response 200 (BusinessBody "Business approved successfully" business))
         end
     end)
    (fun _ => ret server_error).

(** [PUT /api/admin/businesses/:id/reject].  An absent [reason] is the empty
    string. *)
Definition reject (admin : User.t) (id : oid) (reason : string) (env : Env) : M Response :=
  try_catch
    (if bool_decide (reason = "") then ret (response 400 ValidationFailed)
     else
       found <- Business_findById id ;;
       owner <- gets (fun w => found ≫= fun b => users w !! Business.owner b) ;;
       match found with
       | None => ret (response 404 (Message false "Business not found"))
       | Some business =>
         let business := Business.set_isApproved false business in
         let business := Business.set_rejectedAt (Some (now env)) business in
         let business := Business.set_rejectionReason (Some reason) business in
         Business_save id business ;;;
         match owner with
         | None => throw "TypeError"
         | Some owner =>
           Notification_create (User._id owner) "Business Application Rejected" ;;;
           SystemLog_create (Some (User._id admin)) id
             ("Rejected business " +:+ Business.name business) ;;;
           ret (response 200 (BusinessBody "Business rejected successfully" business))
         end
       end)
    (fun _ => ret server_error).

End Admin.

(** ** Requests and their interleavings *)

Inductive Request :=
| CreateIntent (user : User.t) (businessId : option oid) (stripe : Stripe)
| Confirm (user : User.t) (paymentIntentId : string) (env : Env) (stripe : Stripe)
| GetStatus (user : User.t) (paymentId : oid) (stripe : Stripe)
| Webhook (constructed : outcome StripeEvent)
| Approve (admin : User.t) (id : oid) (env : Env)
| Reject (admin : User.t) (id : oid) (reason : string) (env : Env).

Definition handle (r : Request) : M Response :=
  match r with
  | CreateIntent user businessId stripe => Payments.create_intent user businessId stripe
  | Confirm user paymentIntentId env stripe => Payments.confirm user paymentIntentId env stripe
  | GetStatus user paymentId stripe => Payments.get_status user paymentId stripe
  | Webhook constructed => Payments.webhook constructed
  | Approve admin id env => Admin.approve admin id env
  | Reject admin id reason env => Admin.reject admin id reason env
  end.

(** The world after a request; a handler always ends with a response or a
    swallowed error, and what it wrote stays. *)
Definition after (r : Request) (w : World) : World := snd (handle r w).

(** Requests served one after the other. *)
Definition serve (rs : list Request) (w : World) : World := foldl (fun w r => after r w) w rs.

(** ** A concrete deployment used in the examples *)

Module Fixture.

Definition alice : User.t := User.mk 1 "alice@example.com" "Alice" "Baker" "Business".
Definition root : User.t := User.mk 2 "root@example.com" "Admin" "User" "Admin".

Definition bakery : Business.t := Business.fresh 1 "Bakery".

Definition pi_1 : Payment.t :=
  Payment.mk 100 1 10 "pi_1" "cus_1" 9900 "usd" "pending"
    "Business listing fee for Bakery" {[ "businessName" := MStr "Bakery" ]} None.

(** One business with one pending payment. *)
Definition world0 : World :=
  mk_world (<[1 := alice]> (<[2 := root]> ∅)) (<[10 := bakery]> ∅) [pi_1] [] [] 101 [] [].

Definition intent_of (id status : string) (err : option string) : Intent.t :=
  Intent.mk id status (id +:+ "_secret") 9900 err None None.

Definition intent (status : string) (err : option string) : Intent.t :=
  intent_of "pi_1" status err.

(** A gateway that has one customer, opens intent [pi_2] when asked for a new
    one, and reports [status] for every intent. *)
Definition gateway (status : string) (err : option string) : Stripe :=
  mk_stripe (fun _ => Done ["cus_1"]) (fun _ _ => Done "cus_2")
    (fun _ _ _ _ => Done (intent_of "pi_2" "requires_payment_method" None))
    (fun id => Done (intent_of id status err)).

Definition event_of (id type status : string) (err : option string) : outcome StripeEvent :=
  Done (mk_event type (intent_of id status err)).

Definition event (type status : string) (err : option string) : outcome StripeEvent :=
  event_of "pi_1" type status err.

Definition env0 : Env := mk_env 1700000000 424242.
Definition env1 : Env := mk_env 1700086400 171717.

(** Two intents are opened for the bakery; the first is paid and the
    business approved, then the second one fails. *)
Definition second_intent_fails : list Request :=
  [ CreateIntent alice (Some 10) (gateway "requires_payment_method" None);
    Webhook (event_of "pi_1" "payment_intent.succeeded" "succeeded" None);
    Approve root 10 env0;
    Webhook (event_of "pi_2" "payment_intent.payment_failed" "requires_payment_method"
               (Some "card_declined")) ].

End Fixture.

(** * Specification vocabulary *)

(** ** Invariants of handlers *)

(** [m] keeps the invariant [I], whatever it returns or throws. *)
Definition preserves (I : World -> Prop) {A} (m : M A) : Prop :=
  forall w, I w -> I (snd (m w)).

(** The four ledger writes, as obligations on an invariant. *)
Definition save_ok (I : World -> Prop) (p : Payment.t) : Prop :=
  forall w, I w -> I (set_payments (Db.replace_payment p) w).
Definition insert_payment_ok (I : World -> Prop) : Prop :=
  forall p w, I w -> I (set_payments (fun l => (l ++ [p])%list) w).
Definition insert_order_ok (I : World -> Prop) : Prop :=
  forall o w, I w -> I (set_orders (fun l => (l ++ [o])%list) w).
Definition update_ok (I : World -> Prop) (id : oid) (f : Business.t -> Business.t) : Prop :=
  forall w, I w -> I (set_businesses (alter f id) w).
Definition put_ok (I : World -> Prop) (id : oid) (b : Business.t) : Prop :=
  forall w, I w -> I (set_businesses (insert id b) w).

(** Every value [m] returns satisfies [Q]. *)
Definition yields {A} (Q : A -> Prop) (m : M A) : Prop :=
  forall w a w', m w = (Done a, w') -> Q a.

(** ** The approval gate *)

Definition gated (b : Business.t) : Prop :=
  Business.isApproved b = true -> Business.paymentStatus b = "paid".

(** No business is approved while unpaid. *)
Definition gate_ok (w : World) : Prop :=
  forall id b, businesses w !! id = Some b -> gated b.

(** Requests that never take [paymentStatus] away from [paid]: everything but
    a webhook delivery of [payment_intent.payment_failed] or
    [payment_intent.canceled]. *)
Definition keeps_paid (r : Request) : bool :=
  match r with
  | Webhook (Done event) =>
    negb (bool_decide (event_type event = "payment_intent.payment_failed"))
    && negb (bool_decide (event_type event = "payment_intent.canceled"))
  | _ => true
  end.

(** ** Stored status of a payment record *)

Definition has_id (i : oid) (p : Payment.t) : bool := bool_decide (Payment._id p = i).

Definition stored (i : oid) (w : World) : option Payment.t := find (has_id i) (payments w).

Definition stored_status (i : oid) (w : World) : option string :=
  Payment.status <$> stored i w.

(** A request through which the gateway reports [succeeded]. *)
Definition reports_succeeded (r : Request) : Prop :=
  match r with
  | Confirm _ id _ stripe =>
    forall pi, paymentIntents_retrieve stripe id = Done pi -> Intent.status pi = "succeeded"
  | GetStatus _ _ stripe =>
    forall id pi, paymentIntents_retrieve stripe id = Done pi -> Intent.status pi = "succeeded"
  | Webhook (Done event) => event_type event = "payment_intent.succeeded"
  | _ => False
  end.

(** The record with id [i] is stored as succeeded. *)
Definition settled (i : oid) (w : World) : Prop := stored_status i w = Some "succeeded".

(** ** Re-delivery *)

(** Requests whose repetition the handlers absorb: any webhook delivery, and a
    confirm call to which the gateway does not answer [succeeded]. *)
Definition redelivery_safe (r : Request) : Prop :=
  match r with
  | Webhook _ => True
  | Confirm _ id _ stripe =>
    forall pi, paymentIntents_retrieve stripe id = Done pi -> Intent.status pi <> "succeeded"
  | _ => False
  end.

(** Follows the spec's words: a status observation [(intentId, status,
    detail)] is a payment intent as the gateway holds it, and it reaches the
    ledgers through one of two channels.  Through confirm, the gateway answers
    the retrieve call with that intent; through the webhook, the gateway
    delivers the event named after the status, carrying that intent. *)
Inductive channel := ViaConfirm | ViaWebhook.

Definition event_for (status : string) : string :=
  if bool_decide (status = "succeeded") then "payment_intent.succeeded"
  else if bool_decide (status = "failed") then "payment_intent.payment_failed"
  else if bool_decide (status = "canceled") then "payment_intent.canceled"
  else "payment_intent." +:+ status.

(** A gateway that answers every retrieve call with [pi]; the customer and
    intent-creation calls play no part in an observation. *)
Definition reporting (pi : Intent.t) : Stripe :=
  mk_stripe (fun _ => Thrown "unused") (fun _ _ => Thrown "unused")
    (fun _ _ _ _ => Thrown "unused") (fun _ => Done pi).

Definition observe (ch : channel) (user : User.t) (env : Env) (pi : Intent.t) : Request :=
  match ch with
  | ViaConfirm => Confirm user (Intent.id pi) env (reporting pi)
  | ViaWebhook => Webhook (Done (mk_event (event_for (Intent.status pi)) pi))
  end.

(** The pairs of applications of which the second is a pure re-delivery: the
    webhook twice; confirm twice, unless the status is succeeded; confirm and
    then the webhook, unless the status is failed or canceled (the webhook
    helper then adds the failure reason and the business status); the webhook
    and then confirm, for failed and canceled only (for the other statuses
    confirm stores the status, and for succeeded creates the order, which the
    webhook helper does not). *)
Definition absorbed (ch1 ch2 : channel) (status : string) : bool :=
  match ch1, ch2 with
  | ViaWebhook, ViaWebhook => true
  | ViaConfirm, ViaConfirm => negb (bool_decide (status = "succeeded"))
  | ViaConfirm, ViaWebhook =>
    negb (bool_decide (status = "failed") || bool_decide (status = "canceled"))
  | ViaWebhook, ViaConfirm =>
    bool_decide (status = "failed") || bool_decide (status = "canceled")
  end.


(** * Reasoning about handlers *)

(** ** Invariants kept by every step of a handler, whatever the database does *)

Lemma yields_ret {A} (Q : A -> Prop) a : Q a -> yields Q (ret a).
Proof. intros Ha w a' w' [= <- _]; exact Ha. Qed.

Lemma yields_throw {A} (Q : A -> Prop) e : yields Q (throw e).
Proof. intros w a w' [=]. Qed.

Lemma yields_bind {A B} (Q : B -> Prop) (m : M A) (k : A -> M B) :
  (forall a, yields Q (k a)) -> yields Q (bind m k).
Proof.
  intros Hk w b w'. unfold bind. destruct (m w) as [[a|e] w1]; [apply Hk | intros [=]].
Qed.

Section Preservation.
Variable I : World -> Prop.

(** The invariants of interest look at the ledgers only. *)
Hypothesis I_ledger : forall w w', ledger w = ledger w' -> I w -> I w'.

Lemma preserves_ret {A} (a : A) : preserves I (ret a).
Proof. intros w Hw; exact Hw. Qed.

Lemma preserves_throw {A} e : preserves I (@throw A e).
Proof. intros w Hw; exact Hw. Qed.

Lemma preserves_lift {A} (o : outcome A) : preserves I (lift o).
Proof. intros w Hw; exact Hw. Qed.

Lemma preserves_gets {A} (f : World -> A) : preserves I (gets f).
Proof. intros w Hw; exact Hw. Qed.

Lemma preserves_modify (f : World -> World) :
  (forall w, I w -> I (f w)) -> preserves I (modify f).
Proof. intros Hf w Hw; apply Hf, Hw. Qed.

Lemma preserves_bind {A B} (m : M A) (k : A -> M B) :
  preserves I m -> (forall a, preserves I (k a)) -> preserves I (bind m k).
Proof.
  intros Hm Hk w Hw. unfold bind. specialize (Hm w Hw).
  destruct (m w) as [[a|e] w']; simpl in *; [apply Hk, Hm | exact Hm].
Qed.

Lemma preserves_try_catch {A} (m : M A) (h : string -> M A) :
  preserves I m -> (forall e, preserves I (h e)) -> preserves I (try_catch m h).
Proof.
  intros Hm Hh w Hw. unfold try_catch. specialize (Hm w Hw).
  destruct (m w) as [[a|e] w']; simpl in *; [exact Hm | apply Hh, Hm].
Qed.

Lemma preserves_db_call : preserves I db_call.
Proof.
  intros w Hw. unfold db_call.
  destruct (faults w) as [|[] fs]; simpl; [exact Hw | |];
    (eapply I_ledger; [|exact Hw]; reflexivity).
Qed.

Lemma preserves_fresh_oid : preserves I fresh_oid.
Proof. intros w Hw. simpl. eapply I_ledger; [|exact Hw]; reflexivity. Qed.

Lemma preserves_stripe_call {A} c (o : outcome A) : preserves I (stripe_call c o).
Proof.
  apply preserves_bind; [|intros _; apply preserves_lift].
  apply preserves_modify. intros w Hw. eapply I_ledger; [|exact Hw]; reflexivity.
Qed.

Lemma preserves_set_journal f : preserves I (modify (set_journal f)).
Proof.
  apply preserves_modify. intros w Hw. eapply I_ledger; [|exact Hw]; reflexivity.
Qed.

Lemma preserves_Payment_findOne q : preserves I (Db.Payment_findOne q).
Proof. apply preserves_bind; [apply preserves_db_call | intros _; apply preserves_gets]. Qed.

Lemma preserves_Business_findById id : preserves I (Db.Business_findById id).
Proof. apply preserves_bind; [apply preserves_db_call | intros _; apply preserves_gets]. Qed.

Lemma preserves_Business_findOne_owned id o : preserves I (Db.Business_findOne_owned id o).
Proof. apply preserves_bind; [apply preserves_db_call | intros _; apply preserves_gets]. Qed.

Lemma preserves_SystemLog_create u b d : preserves I (Db.SystemLog_create u b d).
Proof. apply preserves_bind; [apply preserves_db_call | intros _; apply preserves_set_journal]. Qed.

Lemma preserves_Notification_create r t : preserves I (Db.Notification_create r t).
Proof. apply preserves_bind; [apply preserves_db_call | intros _; apply preserves_set_journal]. Qed.

Lemma preserves_notifyNewBusiness b : preserves I (notifyNewBusiness b).
Proof.
  apply preserves_try_catch; [|intros _; apply preserves_ret].
  apply preserves_bind; [apply preserves_db_call | intros _; apply preserves_set_journal].
Qed.

Lemma preserves_Payment_save p : save_ok I p -> preserves I (Db.Payment_save p).
Proof.
  intros Hp. unfold Db.Payment_save. destruct (Payment.valid p); [|apply preserves_throw].
  apply preserves_bind; [apply preserves_db_call | intros _; apply preserves_modify, Hp].
Qed.

Lemma preserves_Payment_create mk : insert_payment_ok I -> preserves I (Db.Payment_create mk).
Proof.
  intros Hins. unfold Db.Payment_create.
  apply preserves_bind; [apply preserves_fresh_oid | intros i].
  destruct (Payment.valid (mk i)); [|apply preserves_throw].
  apply preserves_bind; [apply preserves_db_call | intros _].
  apply preserves_bind; [apply preserves_gets | intros [|]]; [apply preserves_throw |].
  apply preserves_bind; [apply preserves_modify, Hins | intros _; apply preserves_ret].
Qed.

Lemma preserves_Order_create mk : insert_order_ok I -> preserves I (Db.Order_create mk).
Proof.
  intros Hins. unfold Db.Order_create.
  apply preserves_bind; [apply preserves_fresh_oid | intros i].
  apply preserves_bind; [apply preserves_db_call | intros _].
  apply preserves_bind; [apply preserves_gets | intros [|]]; [apply preserves_throw |].
  apply preserves_bind; [apply preserves_modify, Hins | intros _; apply preserves_ret].
Qed.

Lemma preserves_Business_findByIdAndUpdate id f :
  update_ok I id f -> preserves I (Db.Business_findByIdAndUpdate id f).
Proof.
  intros Hf. apply preserves_bind; [apply preserves_db_call | intros _].
  apply preserves_modify, Hf.
Qed.

Lemma preserves_Business_save id b : put_ok I id b -> preserves I (Db.Business_save id b).
Proof.
  intros Hb. apply preserves_bind; [apply preserves_db_call | intros _].
  apply preserves_modify, Hb.
Qed.

Lemma preserves_bind_yields {A B} (Q : A -> Prop) (m : M A) (k : A -> M B) :
  yields Q m -> preserves I m -> (forall a, Q a -> preserves I (k a)) ->
  preserves I (bind m k).
Proof.
  intros HQ Hm Hk w Hw. unfold bind. specialize (Hm w Hw). specialize (HQ w).
  destruct (m w) as [[a|e] w']; simpl in *; [|exact Hm].
  apply (Hk a); [apply (HQ a w' eq_refl) | exact Hm].
Qed.

(** The answer of the gateway reaches the continuation. *)
Lemma preserves_stripe_bind {A B} c (o : outcome A) (k : A -> M B) :
  (forall a, o = Done a -> preserves I (k a)) -> preserves I (bind (stripe_call c o) k).
Proof.
  intros Hk w Hw. unfold bind, stripe_call, modify, lift. simpl.
  destruct o as [a|e]; simpl.
  - apply (Hk a eq_refl). eapply I_ledger; [|exact Hw]; reflexivity.
  - eapply I_ledger; [|exact Hw]; reflexivity.
Qed.

Lemma preserves_stripe_try_bind {A B} c (o : outcome A) (k : option A -> M B) :
  (forall a, o = Done a -> preserves I (k (Some a))) -> preserves I (k None) ->
  preserves I (bind (try_catch (bind (stripe_call c o) (fun a => ret (Some a)))
                               (fun _ => ret None)) k).
Proof.
  intros Hs Hn w Hw. unfold bind, try_catch, stripe_call, modify, lift, ret. simpl.
  destruct o as [a|e]; simpl.
  - apply (Hs a eq_refl). eapply I_ledger; [|exact Hw]; reflexivity.
  - apply Hn. eapply I_ledger; [|exact Hw]; reflexivity.
Qed.

Ltac pres :=
  repeat first
    [ apply preserves_ret | apply preserves_throw | apply preserves_gets
    | apply preserves_lift | apply preserves_db_call | apply preserves_fresh_oid
    | apply preserves_Payment_findOne | apply preserves_Business_findById
    | apply preserves_Business_findOne_owned | apply preserves_SystemLog_create
    | apply preserves_Notification_create | apply preserves_notifyNewBusiness
    | apply preserves_stripe_call
    | apply preserves_Payment_save | apply preserves_Payment_create
    | apply preserves_Order_create | apply preserves_Business_findByIdAndUpdate
    | apply preserves_Business_save
    | apply preserves_try_catch | apply preserves_bind
    | progress intros
    | match goal with
      | |- preserves _ (match ?x with _ => _ end) => destruct x eqn:?
      end ].

(** *** The handlers, up to their ledger writes *)

Lemma preserves_create_intent user businessId stripe :
  insert_payment_ok I -> preserves I (Payments.create_intent user businessId stripe).
Proof. intros Hins. unfold Payments.create_intent. pres; assumption. Qed.

Lemma preserves_confirm user id env stripe :
  (forall p pi, paymentIntents_retrieve stripe id = Done pi ->
                Payment.status p = Intent.status pi -> save_ok I p) ->
  (forall b pid, update_ok I b (fun d => Business.set_paymentId pid
                                         (Business.set_paymentStatus "paid" d))) ->
  insert_order_ok I ->
  preserves I (Payments.confirm user id env stripe).
Proof.
  intros Hsave Hupd Hord. unfold Payments.confirm.
  apply preserves_try_catch; [|pres].
  case_bool_decide; [pres|].
  apply preserves_stripe_bind. intros pi Hpi.
  apply preserves_bind; [pres|]. intros [payment|]; [|pres].
  apply preserves_bind; [pres|]. intros populated.
  apply (preserves_bind_yields (fun p => Payment.status p = Intent.status pi)).
  - repeat case_bool_decide; try destruct populated;
      repeat first [apply yields_throw | apply yields_bind; intros
                   | apply yields_ret; reflexivity].
  - pres; [apply Hupd | assumption].
  - intros p Hp. pres. apply (Hsave _ pi Hpi). exact Hp.
Qed.

Lemma preserves_get_status user paymentId stripe :
  (forall p id pi, paymentIntents_retrieve stripe id = Done pi ->
                   Payment.status p = Intent.status pi -> save_ok I p) ->
  preserves I (Payments.get_status user paymentId stripe).
Proof.
  intros Hsave. unfold Payments.get_status.
  apply preserves_try_catch; [|pres].
  apply preserves_bind; [pres|]. intros [payment|]; [|pres].
  apply preserves_stripe_try_bind; [intros pi Hpi | pres].
  pres. apply (Hsave _ _ pi Hpi). reflexivity.
Qed.

Lemma preserves_handlePaymentSucceeded pi :
  (forall p, Payment.status p = "succeeded" -> save_ok I p) ->
  (forall b, update_ok I b (Business.set_paymentStatus "paid")) ->
  preserves I (Payments.handlePaymentSucceeded pi).
Proof.
  intros Hsave Hupd. unfold Payments.handlePaymentSucceeded.
  pres; [apply Hsave; reflexivity | apply Hupd].
Qed.

Lemma preserves_handlePaymentFailed pi :
  (forall p, Payment.status p = "failed" -> save_ok I p) ->
  (forall b, update_ok I b (Business.set_paymentStatus "failed")) ->
  preserves I (Payments.handlePaymentFailed pi).
Proof.
  intros Hsave Hupd. unfold Payments.handlePaymentFailed.
  pres; [apply Hsave; reflexivity | apply Hupd].
Qed.

Lemma preserves_handlePaymentCanceled pi :
  (forall p, Payment.status p = "canceled" -> save_ok I p) ->
  (forall b, update_ok I b (Business.set_paymentStatus "pending")) ->
  preserves I (Payments.handlePaymentCanceled pi).
Proof.
  intros Hsave Hupd. unfold Payments.handlePaymentCanceled.
  pres; [apply Hsave; reflexivity | apply Hupd].
Qed.

Lemma preserves_webhook c :
  (forall p, save_ok I p) -> (forall b s, update_ok I b (Business.set_paymentStatus s)) ->
  preserves I (Payments.webhook c).
Proof.
  intros Hsave Hupd. destruct c as [event|err]; [|apply preserves_ret].
  unfold Payments.webhook.
  apply preserves_try_catch; [|intros; apply preserves_ret].
  apply preserves_bind; [|intros; apply preserves_ret].
  repeat case_bool_decide;
    [ apply preserves_handlePaymentSucceeded | apply preserves_handlePaymentFailed
    | apply preserves_handlePaymentCanceled | apply preserves_ret ]; auto.
Qed.

Lemma preserves_approve admin id env :
  (forall b, Business.paymentStatus b = "paid" -> put_ok I id b) ->
  preserves I (Admin.approve admin id env).
Proof.
  intros Hput. unfold Admin.approve.
  apply preserves_try_catch; [|pres].
  apply preserves_bind; [pres|]. intros [business|]; [|pres].
  apply preserves_bind; [pres|]. intros owner.
  case_bool_decide as Hpaid; [pres|].
  pres. apply Hput. simpl.
  destruct (decide (Business.paymentStatus business = "paid")); [assumption | contradiction].
Qed.

Lemma preserves_reject admin id reason env :
  (forall b, Business.isApproved b = false -> put_ok I id b) ->
  preserves I (Admin.reject admin id reason env).
Proof.
  intros Hput. unfold Admin.reject.
  pres. apply Hput. reflexivity.
Qed.

End Preservation.

(** ** The approval gate *)

Lemma gate_ledger w w' : ledger w = ledger w' -> gate_ok w -> gate_ok w'.
Proof. intros [= _ _ Hb] Hw id b. rewrite <- Hb. apply Hw. Qed.

Lemma gate_save p : save_ok gate_ok p.
Proof. intros w Hw. exact Hw. Qed.

Lemma gate_insert_payment : insert_payment_ok gate_ok.
Proof. intros p w Hw. exact Hw. Qed.

Lemma gate_insert_order : insert_order_ok gate_ok.
Proof. intros o w Hw. exact Hw. Qed.

Lemma gate_update id f : (forall b, gated b -> gated (f b)) -> update_ok gate_ok id f.
Proof.
  intros Hf w Hw i b. simpl. rewrite lookup_alter. case_decide as Hi.
  - subst i. destruct (businesses w !! id) as [b0|] eqn:Hb0; simpl; [|discriminate].
    intros [= <-]. apply Hf, (Hw id b0 Hb0).
  - apply Hw.
Qed.

Lemma gate_put id b : gated b -> put_ok gate_ok id b.
Proof.
  intros Hb w Hw i b'. simpl. rewrite lookup_insert. case_decide as Hi.
  - intros [= <-]. exact Hb.
  - apply Hw.
Qed.

Lemma gate_after r : keeps_paid r = true -> preserves gate_ok (handle r).
Proof.
  destruct r as [user bid stripe | user pid env stripe | user pid stripe
                | [event|err] | admin id env | admin id reason env]; simpl; intros Hr.
  - apply preserves_create_intent; [exact gate_ledger | exact gate_insert_payment].
  - apply preserves_confirm; [exact gate_ledger | intros; apply gate_save | |
                              exact gate_insert_order].
    intros b p. apply gate_update. intros d Hd. exact (fun _ => eq_refl).
  - apply preserves_get_status; [exact gate_ledger | intros; apply gate_save].
  - apply andb_prop in Hr as [Hf Hc].
    apply negb_true_iff, bool_decide_eq_false in Hf, Hc.
    unfold Payments.webhook.
    apply preserves_try_catch; [|intros; apply preserves_ret].
    apply preserves_bind; [|intros; apply preserves_ret].
    repeat case_bool_decide; try contradiction; [|apply preserves_ret].
    apply preserves_handlePaymentSucceeded; [exact gate_ledger | intros; apply gate_save |].
    intros b. apply gate_update. intros d Hd. exact (fun _ => eq_refl).
  - apply preserves_ret.
  - apply preserves_approve; [exact gate_ledger |].
    intros b Hb. apply gate_put. exact (fun _ => Hb).
  - apply preserves_reject; [exact gate_ledger |].
    intros b Hb. apply gate_put. intros Ha. congruence.
Qed.

(** C3, as the code has it: starting from a state in which no business is
    approved while unpaid, every state reached by serving approve, reject,
    confirm, status-poll, intent-creation and webhook requests, in any order
    and under any database failures, still has no approved unpaid business,
    provided no webhook delivery is a [payment_intent.payment_failed] or
    [payment_intent.canceled] event. *)
Theorem approval_gate_invariant (rs : list Request) (w : World) :
  gate_ok w -> forallb keeps_paid rs = true -> gate_ok (serve rs w).
Proof.
  revert w. induction rs as [|r rs IH]; intros w Hw Hrs; [exact Hw|].
  simpl in Hrs. apply andb_prop in Hrs as [Hr Hrs].
  simpl. apply IH; [|exact Hrs]. apply (gate_after r Hr w Hw).
Qed.

Lemma gate_ok_world0 : gate_ok Fixture.world0.
Proof.
  intros id b. unfold Fixture.world0; simpl.
  rewrite lookup_insert. case_decide; [intros [= <-]; discriminate|].
  rewrite lookup_empty. discriminate.
Qed.

(** The invariant at work: pay, approve, reject and approve again. *)
Lemma approval_gate_invariant_witness :
  gate_ok Fixture.world0 /\
  gate_ok (serve [ Webhook (Fixture.event "payment_intent.succeeded" "succeeded" None);
                   Approve Fixture.root 10 Fixture.env0;
                   Reject Fixture.root 10 "incomplete profile" Fixture.env1;
                   Approve Fixture.root 10 Fixture.env1 ] Fixture.world0).
Proof.
  split; [exact gate_ok_world0|].
  apply approval_gate_invariant; [exact gate_ok_world0 | reflexivity].
Defined.

(** C3 fails as stated: after the second intent of an approved business
    fails, the business is still approved and its [paymentStatus] is
    [failed]. *)
Lemma approved_while_unpaid :
  gate_ok Fixture.world0 /\
  exists b, businesses (serve Fixture.second_intent_fails Fixture.world0) !! 10 = Some b
            /\ Business.isApproved b = true
            /\ Business.paymentStatus b = "failed".
Proof.
  split; [exact gate_ok_world0|].
  eexists. split; [vm_compute; reflexivity|]. split; reflexivity.
Qed.

(** ** Stored status *)

Lemma find_has_id_replace i p l :
  find (has_id i) (Db.replace_payment p l)
  = (fun q => if bool_decide (Payment._id q = Payment._id p) then p else q)
      <$> find (has_id i) l.
Proof.
  induction l as [|q l IH]; [reflexivity|].
  unfold Db.replace_payment. cbn [map find]. fold (Db.replace_payment p l). rewrite IH.
  assert (has_id i (if bool_decide (Payment._id q = Payment._id p) then p else q)
          = has_id i q) as ->.
  { unfold has_id. destruct (decide (Payment._id q = Payment._id p)) as [H|H].
    - rewrite (bool_decide_eq_true_2 _ H). by rewrite H.
    - by rewrite (bool_decide_eq_false_2 _ H). }
  destruct (has_id i q); reflexivity.
Qed.

Lemma find_app_found {A} (f : A -> bool) l l' x :
  find f l = Some x -> find f (l ++ l')%list = Some x.
Proof.
  induction l as [|a l IH]; [discriminate|]. simpl.
  destruct (f a); [trivial | exact IH].
Qed.

Lemma settled_ledger i w w' : ledger w = ledger w' -> settled i w -> settled i w'.
Proof. intros [= Hp _ _]. unfold settled, stored_status, stored. by rewrite Hp. Qed.

Lemma settled_save i p : Payment.status p = "succeeded" -> save_ok (settled i) p.
Proof.
  intros Hp w. unfold settled, stored_status, stored. simpl.
  rewrite find_has_id_replace.
  destruct (find (has_id i) (payments w)) as [q|]; simpl; [|discriminate].
  case_bool_decide; [by rewrite Hp | trivial].
Qed.

Lemma settled_insert_payment i : insert_payment_ok (settled i).
Proof.
  intros p w. unfold settled, stored_status, stored. simpl.
  destruct (find (has_id i) (payments w)) as [q|] eqn:Hq; simpl; [|discriminate].
  by rewrite (find_app_found _ _ _ _ Hq).
Qed.

Lemma settled_after i r : reports_succeeded r -> preserves (settled i) (handle r).
Proof.
  destruct r as [user bid stripe | user pid env stripe | user pid stripe
                | [event|err] | admin id env | admin id reason env]; simpl;
    intros Hr; try contradiction.
  - apply preserves_confirm; [exact (settled_ledger i) | | |].
    + intros p pi Hpi Hp. apply settled_save. rewrite Hp. apply (Hr pi Hpi).
    + intros b p w Hw. exact Hw.
    + intros o w Hw. exact Hw.
  - apply preserves_get_status; [exact (settled_ledger i) |].
    intros p id pi Hpi Hp. apply settled_save. rewrite Hp. apply (Hr id pi Hpi).
  - unfold Payments.webhook. rewrite Hr. simpl.
    apply preserves_try_catch; [|intros; apply preserves_ret].
    apply preserves_bind; [|intros; apply preserves_ret].
    apply preserves_handlePaymentSucceeded; [exact (settled_ledger i) | |].
    + intros p Hp. apply settled_save, Hp.
    + intros b w Hw. exact Hw.
Qed.

(** C4, as the code has it: a record stored as succeeded stays succeeded
    under a later observation through confirm, the webhook or the status poll
    when that observation reports succeeded again, whatever the database does
    meanwhile.  Nothing makes succeeded terminal: an observation of another
    status is stored like any other. *)
Theorem succeeded_kept_when_reported_again (i : oid) (r : Request) (w : World) :
  stored_status i w = Some "succeeded" -> reports_succeeded r ->
  stored_status i (after r w) = Some "succeeded".
Proof. intros Hw Hr. exact (settled_after i r Hr w Hw). Qed.

(** A confirm call after the webhook has already stored succeeded. *)
Lemma succeeded_kept_when_reported_again_witness :
  let w1 := after (Webhook (Fixture.event "payment_intent.succeeded" "succeeded" None))
              Fixture.world0 in
  let r := Confirm Fixture.alice "pi_1" Fixture.env1 (Fixture.gateway "succeeded" None) in
  stored_status 100 w1 = Some "succeeded" /\ reports_succeeded r /\
  stored_status 100 (after r w1) = Some "succeeded".
Proof.
  assert (H1 : stored_status 100
                 (after (Webhook (Fixture.event "payment_intent.succeeded" "succeeded" None))
                    Fixture.world0) = Some "succeeded") by reflexivity.
  assert (H2 : reports_succeeded
                 (Confirm Fixture.alice "pi_1" Fixture.env1 (Fixture.gateway "succeeded" None))).
  { intros pi [= <-]. reflexivity. }
  split; [exact H1|]. split; [exact H2|].
  exact (succeeded_kept_when_reported_again 100 _ _ H1 H2).
Defined.

(** C4 fails as stated: a record stored as succeeded is overwritten by a
    later confirm, status poll or webhook delivery that reports another
    status. *)
Lemma succeeded_overwritten :
  let w1 := after (Confirm Fixture.alice "pi_1" Fixture.env0 (Fixture.gateway "succeeded" None))
              Fixture.world0 in
  stored_status 100 w1 = Some "succeeded"
  /\ stored_status 100 (after (Confirm Fixture.alice "pi_1" Fixture.env1
                                 (Fixture.gateway "processing" None)) w1) = Some "processing"
  /\ stored_status 100 (after (GetStatus Fixture.alice 100
                                 (Fixture.gateway "canceled" None)) w1) = Some "canceled"
  /\ stored_status 100 (after (Webhook (Fixture.event "payment_intent.payment_failed"
                                          "requires_payment_method" (Some "card_declined")))
                          w1) = Some "failed".
Proof. repeat split; vm_compute; reflexivity. Qed.

(** ** Handlers on a healthy database *)

Arguments Db.replace_payment : simpl never.
Arguments Payment.in_enum : simpl never.

Ltac unfold_m :=
  unfold try_catch, bind, Db.Business_findOne_owned, Db.Business_findById, Db.Payment_findOne,
    Db.Payment_save, Db.Payment_create, Db.Order_create, Db.Business_findByIdAndUpdate,
    Db.Business_save, Db.SystemLog_create, Db.Notification_create, notifyNewBusiness,
    stripe_call, fresh_oid, db_call, gets, modify, lift, throw, ret, try_catch, bind,
    Payment.valid.

(** C8: when the business exists, belongs to the caller and has a succeeded
    payment record, create-intent answers 200 with code BUSINESS_ALREADY_PAID
    and leaves the world as it was: no gateway call is made and no payment
    record is created. *)
Theorem already_paid_short_circuit user bid b p stripe w :
  businesses w !! bid = Some b -> Business.owner b = User._id user ->
  p ∈ payments w -> Payment.business p = bid -> Payment.status p = "succeeded" ->
  Payments.create_intent user (Some bid) stripe (healthy w)
  = (Done (response 200 (Coded "BUSINESS_ALREADY_PAID" "Business listing fee already paid")),
     healthy w).
Proof.
  intros Hb Ho Hp Hpb Hps.
  destruct w as [us bs ps os js n sc fs]. unfold healthy, set_faults. cbn in *.
  unfold Payments.create_intent. unfold_m. cbn.
  rewrite Hb. rewrite (bool_decide_eq_true_2 _ Ho). cbn.
  destruct (find _ ps) as [q|] eqn:Hq; [reflexivity|].
  exfalso. pose proof (find_none _ _ Hq p) as Hf. cbn in Hf.
  rewrite Hpb, Hps in Hf. rewrite bool_decide_eq_true_2 in Hf by reflexivity.
  cbn in Hf. apply list_elem_of_In in Hp. specialize (Hf Hp). discriminate.
Qed.

(** The bakery asks for a second intent after its payment succeeded. *)
Lemma already_paid_short_circuit_witness :
  let w1 := after (Webhook (Fixture.event "payment_intent.succeeded" "succeeded" None))
              Fixture.world0 in
  Payments.create_intent Fixture.alice (Some 10) (Fixture.gateway "succeeded" None) (healthy w1)
  = (Done (response 200 (Coded "BUSINESS_ALREADY_PAID" "Business listing fee already paid")),
     healthy w1).
Proof.
  cbv zeta.
  eapply (already_paid_short_circuit Fixture.alice 10 _ (Payment.set_status "succeeded" Fixture.pi_1)).
  - vm_compute. reflexivity.
  - reflexivity.
  - vm_compute. apply list_elem_of_here.
  - reflexivity.
  - reflexivity.
Defined.

(** C10, as the code has it: on a healthy database, rejecting an existing
    business with a non-empty reason stores [isApproved = false], the
    rejection time and the reason, and leaves [approvedAt] (and the payment
    status) as they were. *)
Theorem reject_effect admin id reason env w b :
  reason <> "" -> businesses w !! id = Some b ->
  exists b', businesses (after (Reject admin id reason env) (healthy w)) !! id = Some b'
    /\ Business.isApproved b' = false
    /\ Business.rejectedAt b' = Some (now env)
    /\ Business.rejectionReason b' = Some reason
    /\ Business.approvedAt b' = Business.approvedAt b
    /\ Business.paymentStatus b' = Business.paymentStatus b.
Proof.
  intros Hr Hb.
  destruct w as [us bs ps os js n sc fs]. unfold healthy, set_faults, after. cbn in *.
  unfold Admin.reject. unfold_m. cbn.
  rewrite (bool_decide_eq_false_2 _ Hr). cbn. rewrite Hb. cbn.
  eexists. split.
  - destruct (us !! Business.owner b); cbn; apply lookup_insert_eq.
  - repeat split.
Qed.

(** Rejecting the bakery after it was paid and approved. *)
Lemma reject_effect_witness :
  let w1 := serve [ Webhook (Fixture.event "payment_intent.succeeded" "succeeded" None);
                    Approve Fixture.root 10 Fixture.env0 ] Fixture.world0 in
  exists b', businesses (after (Reject Fixture.root 10 "incomplete profile" Fixture.env1)
                           (healthy w1)) !! 10 = Some b'
    /\ Business.isApproved b' = false
    /\ Business.rejectedAt b' = Some (now Fixture.env1)
    /\ Business.rejectionReason b' = Some "incomplete profile"
    /\ Business.approvedAt b' = Some (now Fixture.env0)
    /\ Business.paymentStatus b' = "paid".
Proof.
  cbv zeta.
  eapply (reject_effect Fixture.root 10 "incomplete profile" Fixture.env1 _
            (Business.mk 1 "Bakery" true true "paid" "draft" None
               (Some (now Fixture.env0)) None None)).
  - discriminate.
  - vm_compute. reflexivity.
Defined.

(** C10 fails as stated: rejecting a business approved earlier leaves the
    approval timestamp in place. *)
Lemma reject_keeps_approvedAt :
  let w1 := serve [ Webhook (Fixture.event "payment_intent.succeeded" "succeeded" None);
                    Approve Fixture.root 10 Fixture.env0 ] Fixture.world0 in
  let w2 := after (Reject Fixture.root 10 "incomplete profile" Fixture.env1) w1 in
  (Business.approvedAt <$> businesses w1 !! 10) = Some (Some (now Fixture.env0))
  /\ (Business.isApproved <$> businesses w2 !! 10) = Some false
  /\ (Business.rejectionReason <$> businesses w2 !! 10) = Some (Some "incomplete profile")
  /\ (Business.approvedAt <$> businesses w2 !! 10) = Some (Some (now Fixture.env0))
  /\ (Business.approvedAt <$> businesses w2 !! 10) <> Some None.
Proof. repeat split; try (vm_compute; reflexivity). vm_compute. discriminate. Qed.

(** ** Re-delivery *)

Lemma find_some_true {A} (f : A -> bool) l x : find f l = Some x -> f x = true.
Proof. intros H. apply (find_some _ _ H). Qed.

Lemma find_query_replace (f : Payment.t -> bool) p p' l :
  find f l = Some p -> f p' = true -> Payment._id p' = Payment._id p ->
  find f (Db.replace_payment p' l) = Some p'.
Proof.
  intros Hf Hp' Hid. induction l as [|q l IH]; [discriminate|].
  unfold Db.replace_payment. cbn [map find]. fold (Db.replace_payment p' l).
  cbn [find] in Hf.
  destruct (decide (Payment._id q = Payment._id p')) as [Hq|Hq].
  - rewrite (bool_decide_eq_true_2 _ Hq). by rewrite Hp'.
  - rewrite (bool_decide_eq_false_2 _ Hq).
    destruct (f q); [|by apply IH].
    injection Hf as ->. congruence.
Qed.

Lemma replace_replace p l :
  Db.replace_payment p (Db.replace_payment p l) = Db.replace_payment p l.
Proof.
  unfold Db.replace_payment. rewrite map_map. apply map_ext. intros q.
  destruct (decide (Payment._id q = Payment._id p)) as [Hq|Hq].
  - rewrite (bool_decide_eq_true_2 _ Hq). by rewrite bool_decide_eq_true_2.
  - by rewrite !(bool_decide_eq_false_2 _ Hq).
Qed.

Lemma alter_idem {A} (f : A -> A) (id : oid) (m : gmap oid A) :
  (forall a, f (f a) = f a) -> alter f id (alter f id m) = alter f id m.
Proof.
  intros Hf. rewrite alter_alter_eq. apply alter_ext. intros a _. apply Hf.
Qed.

Lemma by_intent_found id l p : find (Payments.by_intent id) l = Some p ->
  forall q, Payment.stripePaymentIntentId q = Payment.stripePaymentIntentId p ->
  Payments.by_intent id q = true.
Proof.
  intros Hf q Hq. apply find_some_true in Hf. unfold Payments.by_intent in *.
  by rewrite Hq.
Qed.

Ltac enum_true s := replace (Payment.in_enum s) with true by reflexivity.

Lemma confirm_twice user id env1 env2 stripe w :
  (forall pi, paymentIntents_retrieve stripe id = Done pi -> Intent.status pi <> "succeeded") ->
  let r1 := Confirm user id env1 stripe in
  let r2 := Confirm user id env2 stripe in
  ledger (after r2 (after r1 (healthy w))) = ledger (after r1 (healthy w))
  /\ orders (after r1 (healthy w)) = orders w.
Proof.
  intros Hs. cbv zeta.
  destruct w as [us bs ps os js n sc fs]. unfold healthy, set_faults, after. cbn.
  unfold Payments.confirm. unfold_m. cbn.
  case_bool_decide as Hid; cbn; [done|].
  destruct (paymentIntents_retrieve stripe id) as [pi|e] eqn:Hr; cbn; [|done].
  rewrite (bool_decide_eq_false_2 _ (Hs pi eq_refl)).
  destruct (find _ ps) as [p|] eqn:Hf; cbn; [|by rewrite Hf].
  case_bool_decide as Hpf; cbn.
  - rewrite Hpf.
    replace (Payment.in_enum "payment_failed") with false by reflexivity. cbn.
    rewrite Hf. cbn. done.
  - destruct (Payment.in_enum _) eqn:Hv; cbn.
    + erewrite find_query_replace; [| exact Hf | | reflexivity].
      2:{ apply find_some_true in Hf. exact Hf. }
      cbn. split; [|done]. unfold ledger. cbn. by rewrite replace_replace.
    + rewrite Hf. cbn. done.
Qed.

Lemma webhook_twice c w :
  let r := Webhook c in
  ledger (after r (after r (healthy w))) = ledger (after r (healthy w))
  /\ orders (after r (healthy w)) = orders w.
Proof.
  cbv zeta.
  destruct w as [us bs ps os js n sc fs]. unfold healthy, set_faults, after. cbn.
  destruct c as [[ty obj]|err]; cbn; [|done].
  unfold Payments.webhook. cbn.
  unfold Payments.handlePaymentSucceeded, Payments.handlePaymentFailed,
    Payments.handlePaymentCanceled. unfold_m. cbn.
  repeat case_bool_decide; cbn; try done.
  - enum_true "succeeded".
    destruct (find _ ps) as [p|] eqn:Hf; cbn; [|by rewrite Hf].
    erewrite find_query_replace; [| exact Hf | by apply (by_intent_found _ _ _ Hf) | reflexivity].
    cbn. split; [|done]. unfold ledger. cbn.
    rewrite replace_replace, alter_idem; done.
  - enum_true "failed".
    destruct (find _ ps) as [p|] eqn:Hf; cbn; [|by rewrite Hf].
    erewrite find_query_replace; [| exact Hf | by apply (by_intent_found _ _ _ Hf) | reflexivity].
    cbn. split; [|done]. unfold ledger. cbn.
    rewrite replace_replace, alter_idem; done.
  - enum_true "canceled".
    destruct (find _ ps) as [p|] eqn:Hf; cbn; [|by rewrite Hf].
    erewrite find_query_replace; [| exact Hf | by apply (by_intent_found _ _ _ Hf) | reflexivity].
    cbn. split; [|done]. unfold ledger. cbn.
    rewrite replace_replace, alter_idem; done.
Qed.

Lemma same_request_twice (r : Request) (w : World) :
  redelivery_safe r ->
  ledger (after r (after r (healthy w))) = ledger (after r (healthy w))
  /\ orders (after r (healthy w)) = orders w.
Proof.
  destruct r as [user bid stripe | user pid env stripe | user pid stripe
                | c | admin id env | admin id reason env]; simpl; intros Hr;
    try contradiction.
  - apply (confirm_twice user pid env env), Hr.
  - apply webhook_twice.
Qed.

Lemma find_weaken {A} (f g : A -> bool) l p :
  find g l = Some p -> (forall q, f q = true -> g q = true) -> f p = true ->
  find f l = Some p.
Proof.
  intros Hg Hfg Hp. induction l as [|q l IH]; [discriminate|].
  cbn in *. destruct (g q) eqn:Hq.
  - injection Hg as ->. by rewrite Hp.
  - destruct (f q) eqn:Hfq; [|by apply IH]. apply Hfg in Hfq. congruence.
Qed.

Lemma replace_replace_id p1 p0 l : Payment._id p1 = Payment._id p0 ->
  Db.replace_payment p1 (Db.replace_payment p0 l) = Db.replace_payment p1 l.
Proof.
  intros Hid. unfold Db.replace_payment. rewrite map_map. apply map_ext. intros q.
  destruct (decide (Payment._id q = Payment._id p0)) as [Hq|Hq].
  - rewrite (bool_decide_eq_true_2 _ Hq).
    rewrite !bool_decide_eq_true_2 by congruence. reflexivity.
  - rewrite (bool_decide_eq_false_2 _ Hq). reflexivity.
Qed.

Lemma find_by_intent_replace id l p p' :
  find (Payments.by_intent id) l = Some p ->
  Payment.stripePaymentIntentId p' = Payment.stripePaymentIntentId p ->
  Payment._id p' = Payment._id p ->
  find (Payments.by_intent id) (Db.replace_payment p' l) = Some p'.
Proof.
  intros Hf Hi Hid. apply (find_query_replace _ p); [exact Hf | | exact Hid].
  apply find_some_true in Hf. unfold Payments.by_intent in *. by rewrite Hi.
Qed.

Lemma find_owned_replace id u l p p' :
  find (fun q => bool_decide (Payment.stripePaymentIntentId q = id)
                 && bool_decide (Payment.user q = u)) l = Some p ->
  Payment.stripePaymentIntentId p' = Payment.stripePaymentIntentId p ->
  Payment.user p' = Payment.user p ->
  Payment._id p' = Payment._id p ->
  find (fun q => bool_decide (Payment.stripePaymentIntentId q = id)
                 && bool_decide (Payment.user q = u)) (Db.replace_payment p' l) = Some p'.
Proof.
  intros Hf Hi Hu Hid. apply (find_query_replace _ p); [exact Hf | | exact Hid].
  apply find_some_true in Hf. cbn in *. by rewrite Hi, Hu.
Qed.

Lemma ledger_eq (a a' : list Payment.t) (b b' : list Order.t) (c c' : gmap oid Business.t) :
  a = a' -> b = b' -> c = c' -> (a, b, c) = (a', b', c').
Proof. by intros -> -> ->. Qed.

(** Decisions between string literals, evaluated. *)
Ltac decide_closed :=
  repeat match goal with
  | |- context [bool_decide (?a = ?b)] =>
    let v := eval vm_compute in (bool_decide (a = b)) in
    match v with
    | true => change (bool_decide (a = b)) with true
    | false => change (bool_decide (a = b)) with false
    end
  | |- context [Payment.in_enum ?a] =>
    let v := eval vm_compute in (Payment.in_enum a) in
    match v with
    | true => change (Payment.in_enum a) with true
    | false => change (Payment.in_enum a) with false
    end
  end.

Ltac simp := repeat (progress (cbn; decide_closed)).

Arguments Payments.generateOrderNumber : simpl never.

Lemma order_number_fresh n os :
  (forall o, o ∈ os -> Order.orderNumber o <> n) ->
  existsb (fun q => bool_decide (Order.orderNumber q = n)) os = false.
Proof.
  intros H. induction os as [|o os IH]; [reflexivity|]. cbn.
  rewrite bool_decide_eq_false_2 by (apply H, list_elem_of_here). cbn.
  apply IH. intros o' Ho'. apply H, list_elem_of_further, Ho'.
Qed.

(** One channel after the other, in either order. *)
Lemma both_channels user env1 env2 pi w p b :
  Intent.status pi ∈ Payment.status_enum -> Intent.id pi <> "" ->
  find (Payments.by_intent (Intent.id pi)) (payments w) = Some p ->
  Payment.user p = User._id user ->
  businesses w !! Payment.business p = Some b ->
  (forall o, o ∈ orders w -> Order.orderNumber o <> Payments.generateOrderNumber env1) ->
  (absorbed ViaConfirm ViaWebhook (Intent.status pi) = true ->
   ledger (serve [observe ViaConfirm user env1 pi; observe ViaWebhook user env2 pi] (healthy w))
   = ledger (serve [observe ViaConfirm user env1 pi] (healthy w)))
  /\ (absorbed ViaWebhook ViaConfirm (Intent.status pi) = true ->
      ledger (serve [observe ViaWebhook user env1 pi; observe ViaConfirm user env2 pi] (healthy w))
      = ledger (serve [observe ViaWebhook user env1 pi] (healthy w)))
  /\ length (orders (serve [observe ViaConfirm user env1 pi; observe ViaWebhook user env2 pi]
                       (healthy w))) <= S (length (orders w))
  /\ length (orders (serve [observe ViaWebhook user env1 pi; observe ViaConfirm user env2 pi]
                       (healthy w))) <= S (length (orders w)).
Proof.
  intros Hst Hid Hf Hu Hb Hfresh.
  apply order_number_fresh in Hfresh.
  destruct w as [us bs ps os js n sc fs]. unfold healthy, set_faults, serve, after. cbn in *.
  destruct pi as [iid st cs am err bn ba]. cbn in *.
  assert (HfC : find (fun q => bool_decide (Payment.stripePaymentIntentId q = iid)
                               && bool_decide (Payment.user q = User._id user)) ps = Some p).
  { apply (find_weaken _ _ _ _ Hf).
    - intros q Hq. apply andb_prop in Hq as [Hq _]. exact Hq.
    - apply find_some_true in Hf. unfold Payments.by_intent in Hf. rewrite Hf.
      by rewrite bool_decide_eq_true_2. }
  unfold Payment.status_enum in Hst.
  repeat (apply elem_of_cons in Hst as [->|Hst]); [..|by apply elem_of_nil in Hst].
  all: unfold absorbed, event_for;
    repeat (progress
      (unfold Payments.webhook, Payments.confirm, Payments.handlePaymentSucceeded,
         Payments.handlePaymentFailed, Payments.handlePaymentCanceled; unfold_m; simp;
       rewrite ?(bool_decide_eq_false_2 _ Hid), ?HfC, ?Hf, ?lookup_alter_eq, ?Hb, ?Hfresh;
       try (erewrite (find_by_intent_replace _ _ _ _ Hf) by reflexivity);
       try (erewrite (find_owned_replace _ _ _ _ _ HfC) by reflexivity);
       try match goal with
           | |- context [existsb ?f ?l] => destruct (existsb f l) eqn:?
           end)).
  all: repeat split; rewrite ?length_app; cbn; try lia; try discriminate.
  all: intros _; unfold ledger; cbn; rewrite ?replace_replace_id by reflexivity;
    rewrite ?alter_alter_eq; apply ledger_eq; try reflexivity;
    try (apply alter_ext; intros; reflexivity).
Qed.

(** C1, as the code has it: for a stored payment record that belongs to the
    confirming user and whose business exists, on a healthy database, when
    the order number drawn by the first application is not in use, applying
    the same observation twice through any combination of confirm and webhook
    other than two confirm calls that observe succeeded creates at most one
    order in total; and whenever the second application is a pure re-delivery
    ([absorbed]), it leaves the payment records, the orders and the
    businesses exactly as the first application left them. *)
Theorem redelivery_idempotent (ch1 ch2 : channel) user env1 env2 pi w p b :
  Intent.status pi ∈ Payment.status_enum -> Intent.id pi <> "" ->
  find (Payments.by_intent (Intent.id pi)) (payments w) = Some p ->
  Payment.user p = User._id user ->
  businesses w !! Payment.business p = Some b ->
  (forall o, o ∈ orders w -> Order.orderNumber o <> Payments.generateOrderNumber env1) ->
  ~ (ch1 = ViaConfirm /\ ch2 = ViaConfirm /\ Intent.status pi = "succeeded") ->
  (absorbed ch1 ch2 (Intent.status pi) = true ->
   ledger (serve [observe ch1 user env1 pi; observe ch2 user env2 pi] (healthy w))
   = ledger (serve [observe ch1 user env1 pi] (healthy w)))
  /\ length (orders (serve [observe ch1 user env1 pi; observe ch2 user env2 pi] (healthy w)))
     <= S (length (orders w)).
Proof.
  intros Hst Hid Hf Hu Hb Hfresh Hcc.
  destruct (both_channels user env1 env2 pi w p b Hst Hid Hf Hu Hb Hfresh)
    as (Hcw & Hwc & Hocw & Howc).
  assert (Hlen : forall w1 w2, ledger w1 = ledger w2 -> length (orders w1) = length (orders w2)).
  { intros w1 w2 [= _ Ho _]. by rewrite Ho. }
  destruct ch1, ch2.
  - assert (Hs : Intent.status pi <> "succeeded") by (intros Hs; apply Hcc; auto).
    destruct (confirm_twice user (Intent.id pi) env1 env2 (reporting pi) w) as [Hl Ho].
    { intros pi' [= <-]. exact Hs. }
    split; [intros _; exact Hl|]. cbn [serve foldl observe].
    rewrite (Hlen _ _ Hl), Ho. lia.
  - split; [exact Hcw | exact Hocw].
  - split; [exact Hwc | exact Howc].
  - destruct (same_request_twice (observe ViaWebhook user env1 pi) w I) as [Hl Ho].
    split; [intros _; exact Hl|]. cbn [serve foldl].
    change (observe ViaWebhook user env2 pi) with (observe ViaWebhook user env1 pi).
    rewrite (Hlen _ _ Hl), Ho. lia.
Qed.

(** Confirm reports success first, the webhook second: the delivery is
    absorbed. *)
Lemma redelivery_idempotent_witness :
  let pi := Fixture.intent "succeeded" None in
  let C := observe ViaConfirm Fixture.alice Fixture.env0 pi in
  let W := observe ViaWebhook Fixture.alice Fixture.env1 pi in
  (absorbed ViaConfirm ViaWebhook "succeeded" = true ->
   ledger (serve [C; W] (healthy Fixture.world0)) = ledger (serve [C] (healthy Fixture.world0)))
  /\ length (orders (serve [C; W] (healthy Fixture.world0))) <= 1.
Proof.
  cbv zeta.
  apply (redelivery_idempotent ViaConfirm ViaWebhook Fixture.alice Fixture.env0 Fixture.env1
           (Fixture.intent "succeeded" None) Fixture.world0 Fixture.pi_1 Fixture.bakery).
  - vm_compute. apply list_elem_of_further, list_elem_of_here.
  - discriminate.
  - reflexivity.
  - reflexivity.
  - vm_compute. reflexivity.
  - intros o Ho. cbn in Ho. by apply elem_of_nil in Ho.
  - intros (_ & H & _). discriminate.
Defined.

(** C1 fails as stated: two confirm calls that observe succeeded, drawing
    the order numbers 424242 and 171717, create two orders, so the second
    application changes the ledgers. *)
Lemma confirm_twice_two_orders :
  let pi := Fixture.intent "succeeded" None in
  let C0 := observe ViaConfirm Fixture.alice Fixture.env0 pi in
  let C1 := observe ViaConfirm Fixture.alice Fixture.env1 pi in
  length (orders (serve [C0] Fixture.world0)) = 1
  /\ Order.orderNumber <$> orders (serve [C0; C1] Fixture.world0) = ["ORD-424242"; "ORD-171717"]
  /\ ledger (serve [C0; C1] Fixture.world0) <> ledger (serve [C0] Fixture.world0).
Proof.
  cbv zeta. split; [reflexivity|]. split; [vm_compute; reflexivity|].
  intros H. apply (f_equal (fun l => length (snd (fst l)))) in H.
  vm_compute in H. discriminate.
Qed.

(** ** The last observation wins *)

Lemma find_has_id_self p l :
  In p l -> exists q, find (has_id (Payment._id p)) l = Some q /\ Payment._id q = Payment._id p.
Proof.
  induction l as [|a l IH]; [intros []|]. intros [->|Hin]; cbn.
  - exists p. unfold has_id. by rewrite bool_decide_eq_true_2.
  - unfold has_id at 1. case_bool_decide as Ha; [by exists a|]. by apply IH.
Qed.

Lemma find_has_id_saved p p' l :
  In p l -> Payment._id p' = Payment._id p ->
  find (has_id (Payment._id p)) (Db.replace_payment p' l) = Some p'.
Proof.
  intros Hin Hid. rewrite find_has_id_replace.
  destruct (find_has_id_self p _ Hin) as (q & -> & Hq). cbn.
  rewrite bool_decide_eq_true_2 by congruence. reflexivity.
Qed.

(** On a healthy database, confirm stores whatever status of the schema the
    gateway reports for the caller's record, whatever was stored before. *)
Lemma confirm_stores_observed user id env stripe pi w p :
  id <> "" -> paymentIntents_retrieve stripe id = Done pi ->
  Payment.in_enum (Intent.status pi) = true -> Intent.status pi <> "succeeded" ->
  find (fun q => bool_decide (Payment.stripePaymentIntentId q = id)
                 && bool_decide (Payment.user q = User._id user)) (payments w) = Some p ->
  stored_status (Payment._id p) (after (Confirm user id env stripe) (healthy w))
  = Some (Intent.status pi).
Proof.
  intros Hid Hr He Hs Hf.
  pose proof (proj1 (find_some _ _ Hf)) as Hin.
  destruct w as [us bs ps os js n sc fs]. unfold healthy, set_faults, after. cbn in *.
  unfold Payments.confirm. unfold_m. cbn.
  rewrite (bool_decide_eq_false_2 _ Hid), Hr. cbn. rewrite Hf. cbn.
  rewrite (bool_decide_eq_false_2 _ Hs).
  assert (Hpf : Intent.status pi <> "payment_failed").
  { intros Heq. rewrite Heq in He. discriminate. }
  rewrite (bool_decide_eq_false_2 _ Hpf). cbn. rewrite He. cbn.
  rewrite (find_has_id_saved p) by done. reflexivity.
Qed.

(** So does the status poll, when the reported status differs. *)
Lemma get_status_stores_observed user pid stripe pi w p :
  paymentIntents_retrieve stripe (Payment.stripePaymentIntentId p) = Done pi ->
  Payment.in_enum (Intent.status pi) = true ->
  Payment.status p <> Intent.status pi ->
  find (fun q => bool_decide (Payment._id q = pid)
                 && bool_decide (Payment.user q = User._id user)) (payments w) = Some p ->
  stored_status (Payment._id p) (after (GetStatus user pid stripe) (healthy w))
  = Some (Intent.status pi).
Proof.
  intros Hr He Hs Hf.
  pose proof (proj1 (find_some _ _ Hf)) as Hin.
  destruct w as [us bs ps os js n sc fs]. unfold healthy, set_faults, after. cbn in *.
  unfold Payments.get_status. unfold_m. cbn.
  rewrite Hf. cbn. rewrite Hr. cbn.
  rewrite (bool_decide_eq_true_2 _ Hs). cbn. rewrite He. cbn.
  rewrite (find_has_id_saved p) by done. reflexivity.
Qed.

(** And the failed and canceled deliveries of the webhook. *)
Lemma webhook_stores_failed_or_canceled obj w p :
  find (Payments.by_intent (Intent.id obj)) (payments w) = Some p ->
  stored_status (Payment._id p)
    (after (Webhook (Done (mk_event "payment_intent.payment_failed" obj))) (healthy w))
  = Some "failed"
  /\ stored_status (Payment._id p)
       (after (Webhook (Done (mk_event "payment_intent.canceled" obj))) (healthy w))
     = Some "canceled".
Proof.
  intros Hf. pose proof (proj1 (find_some _ _ Hf)) as Hin.
  destruct w as [us bs ps os js n sc fs]. unfold healthy, set_faults, after. cbn in *.
  unfold Payments.webhook, Payments.handlePaymentFailed, Payments.handlePaymentCanceled.
  unfold_m. simp. rewrite Hf. simp.
  rewrite !(find_has_id_saved p) by done. split; reflexivity.
Qed.

(** ** What the webhook and the status poll leave undone *)

Lemma orders_ledger os w w' : ledger w = ledger w' -> orders w = os -> orders w' = os.
Proof. intros [= _ Ho _]. by rewrite Ho. Qed.

Lemma businesses_ledger bs w w' : ledger w = ledger w' -> businesses w = bs -> businesses w' = bs.
Proof. intros [= _ _ Hb]. by rewrite Hb. Qed.

Lemma webhook_keeps_orders c w : orders (after (Webhook c) w) = orders w.
Proof.
  apply (preserves_webhook (fun w' => orders w' = orders w) (orders_ledger (orders w)));
    try reflexivity; intros; intros w' Hw'; exact Hw'.
Qed.

Lemma get_status_keeps_orders user pid stripe w :
  orders (after (GetStatus user pid stripe) w) = orders w.
Proof.
  apply (preserves_get_status (fun w' => orders w' = orders w) (orders_ledger (orders w)));
    try reflexivity; intros; intros w' Hw'; exact Hw'.
Qed.

Lemma get_status_keeps_businesses user pid stripe w :
  businesses (after (GetStatus user pid stripe) w) = businesses w.
Proof.
  apply (preserves_get_status (fun w' => businesses w' = businesses w)
           (businesses_ledger (businesses w)));
    try reflexivity; intros; intros w' Hw'; exact Hw'.
Qed.

(** C2: the webhook path misses what the confirm path does.  No webhook
    delivery ever creates an order; a [payment_intent.succeeded] delivery for
    the pending record of the fixture marks it succeeded and the business
    paid, but leaves the order ledger empty and writes no [orderId] into the
    metadata, while confirm on the same state creates the order for that
    payment. *)
Theorem webhook_success_creates_no_order :
  (forall c w, orders (after (Webhook c) w) = orders w)
  /\ (let w1 := after (Webhook (Fixture.event "payment_intent.succeeded" "succeeded" None))
                  Fixture.world0 in
      stored_status 100 Fixture.world0 = Some "pending"
      /\ stored_status 100 w1 = Some "succeeded"
      /\ (Business.paymentStatus <$> businesses w1 !! 10) = Some "paid"
      /\ orders w1 = []
      /\ (stored 100 w1 ≫= fun p => Payment.metadata p !! "orderId") = None)
  /\ (let w2 := after (Confirm Fixture.alice "pi_1" Fixture.env0
                         (Fixture.gateway "succeeded" None)) Fixture.world0 in
      stored_status 100 w2 = Some "succeeded"
      /\ (Business.paymentStatus <$> businesses w2 !! 10) = Some "paid"
      /\ ((fun o => (Order._id o, Order.payment o, Order.total o, Order.orderNumber o))
            <$> orders w2) = [(101, 100, 9900%N, "ORD-424242")]).
Proof.
  split; [exact webhook_keeps_orders|].
  split; cbv zeta; repeat split; vm_compute; reflexivity.
Qed.

(** C5: the status poll stores the gateway's status and nothing else.  It
    never touches a business or the order ledger; polling the pending record
    of the fixture while the gateway reports succeeded answers with the
    succeeded view and stores it, but the business stays pending and no order
    exists, while confirm on the same state pays the business and creates the
    order. *)
Theorem status_poll_only_stores_status :
  (forall user pid stripe w,
     orders (after (GetStatus user pid stripe) w) = orders w
     /\ businesses (after (GetStatus user pid stripe) w) = businesses w)
  /\ (let r := GetStatus Fixture.alice 100 (Fixture.gateway "succeeded" None) in
      let w1 := after r Fixture.world0 in
      fst (handle r Fixture.world0)
        = Done (response 200 (PaymentBody (Payment.set_status "succeeded" Fixture.pi_1) None))
      /\ stored_status 100 w1 = Some "succeeded"
      /\ (Business.paymentStatus <$> businesses w1 !! 10) = Some "pending"
      /\ orders w1 = [])
  /\ (let w2 := after (Confirm Fixture.alice "pi_1" Fixture.env0
                         (Fixture.gateway "succeeded" None)) Fixture.world0 in
      stored_status 100 w2 = Some "succeeded"
      /\ (Business.paymentStatus <$> businesses w2 !! 10) = Some "paid"
      /\ length (orders w2) = 1).
Proof.
  split.
  { intros. split; [apply get_status_keeps_orders | apply get_status_keeps_businesses]. }
  split; cbv zeta; repeat split; vm_compute; reflexivity.
Qed.

(** C6: on the confirm channel a failed observation loses the reason and the
    business update.  When the gateway reports [failed] with message
    card_declined for the pending record of the fixture, confirm stores the
    status but no failure reason, and the business stays pending; when it
    reports [payment_failed], the only status for which confirm sets the
    reason, the save is refused by the schema and nothing is stored.  The
    webhook delivery of the same failure stores status, reason and the failed
    business. *)
Theorem confirm_failed_misses_reason_and_business :
  (let r := Confirm Fixture.alice "pi_1" Fixture.env0
              (Fixture.gateway "failed" (Some "card_declined")) in
   let w1 := after r Fixture.world0 in
   stored_status 100 w1 = Some "failed"
   /\ (Payment.failureReason <$> stored 100 w1) = Some None
   /\ (Business.paymentStatus <$> businesses w1 !! 10) = Some "pending"
   /\ orders w1 = [])
  /\ (let r := Confirm Fixture.alice "pi_1" Fixture.env0
                 (Fixture.gateway "payment_failed" (Some "card_declined")) in
      fst (handle r Fixture.world0) = Done server_error
      /\ ledger (after r Fixture.world0) = ledger Fixture.world0)
  /\ (let w2 := after (Webhook (Fixture.event "payment_intent.payment_failed"
                                  "requires_payment_method" (Some "card_declined")))
                  Fixture.world0 in
      stored_status 100 w2 = Some "failed"
      /\ (Payment.failureReason <$> stored 100 w2) = Some (Some "card_declined")
      /\ (Business.paymentStatus <$> businesses w2 !! 10) = Some "failed"
      /\ orders w2 = []).
Proof. cbv zeta; repeat split; vm_compute; reflexivity. Qed.

(** C7: on the confirm channel a canceled observation does not reset the
    business.  After a failed attempt has set the business of the fixture to
    failed, a confirm call that observes canceled stores the canceled status
    and leaves the business failed; the webhook delivery of the cancellation
    resets it to pending, and the next create-intent opens a new intent and a
    new pending record. *)
Theorem confirm_canceled_leaves_business :
  let w1 := after (Webhook (Fixture.event "payment_intent.payment_failed"
                              "requires_payment_method" (Some "card_declined")))
              Fixture.world0 in
  let w2 := after (Confirm Fixture.alice "pi_1" Fixture.env0 (Fixture.gateway "canceled" None))
              w1 in
  let w3 := after (Webhook (Fixture.event "payment_intent.canceled" "canceled" None)) w1 in
  let again := CreateIntent Fixture.alice (Some 10)
                 (Fixture.gateway "requires_payment_method" None) in
  (Business.paymentStatus <$> businesses w1 !! 10) = Some "failed"
  /\ stored_status 100 w2 = Some "canceled"
  /\ (Business.paymentStatus <$> businesses w2 !! 10) = Some "failed"
  /\ stored_status 100 w3 = Some "canceled"
  /\ (Business.paymentStatus <$> businesses w3 !! 10) = Some "pending"
  /\ fst (handle again w3)
       = Done (response 200 (IntentCreated "pi_2_secret" 101 "pi_2" 9900 "usd"))
  /\ stored_status 101 (after again w3) = Some "pending".
Proof. cbv zeta; repeat split; vm_compute; reflexivity. Qed.

Lemma swallow_done (m : M unit) w : fst (try_catch m (fun _ => ret tt) w) = Done tt.
Proof. unfold try_catch. destruct (m w) as [[[]|e] w']; reflexivity. Qed.

Lemma webhook_acknowledges event w :
  fst (Payments.webhook (Done event) w) = Done (response 200 Received).
Proof.
  unfold Payments.webhook.
  assert (H : forall m : M unit, fst (m w) = Done tt ->
    fst (try_catch (bind m (fun _ => ret (response 200 Received)))
           (fun _ => ret (response 500 (ErrorBody "Webhook handler failed"))) w)
    = Done (response 200 Received)).
  { intros m Hm. unfold try_catch, bind, ret.
    destruct (m w) as [[[]|e] w']; simpl in *; [reflexivity | discriminate]. }
  apply H. repeat case_bool_decide; try apply swallow_done. reflexivity.
Qed.

(** C9: a verified webhook delivery is always answered 200 received, whatever
    the database does: the three helpers catch their own errors, so the 500
    branch of the route is never taken.  In the fixture, a
    [payment_intent.succeeded] delivery whose save throws is acknowledged
    while the record stays pending and the business unpaid. *)
Theorem webhook_always_acknowledges :
  (forall event w, fst (handle (Webhook (Done event)) w) = Done (response 200 Received))
  /\ (let r := Webhook (Fixture.event "payment_intent.succeeded" "succeeded" None) in
      let w := set_faults [false; true] Fixture.world0 in
      fst (handle r w) = Done (response 200 Received)
      /\ ledger (after r w) = ledger Fixture.world0
      /\ stored_status 100 (after r w) = Some "pending").
Proof.
  split; [exact webhook_acknowledges|].
  cbv zeta; repeat split; vm_compute; reflexivity.
Qed.
